(** * class-validator: the decorators of [src/decorator/decorators.ts]

    Every decorator of the file builds a [ValidationMetadataArgs] literal,
    wraps it in a [ValidationMetadata] and hands it to the process-wide
    [MetadataStorage].  The development embeds the decorators one by one,
    gives the storage the behaviour the specification describes, and proves
    what a decorator application leaves in the storage. *)

From Stdlib Require Import ZArith.
From stdpp Require Import base strings list gmap.

Open Scope string_scope.
Open Scope list_scope.

(** ** JavaScript values

    The decorators take rule parameters of type [any], [number], [RegExp],
    option literals and so on.  Types are erased at run time, so every such
    parameter is a [JsValue]; an omitted argument is [JsUndefined]. *)

(** A class (constructor function) is known by its identity. *)
Abbreviation Function := positive.

#[local] Set Warnings "-register-all".
Inductive JsValue : Type :=
| JsUndefined
| JsNull
| JsBoolean (b : bool)
| JsNumber (n : Z)
| JsNaN
| JsString (s : string)
| JsRegExp (source : string)
| JsFunction (f : Function)
| JsArray (items : list JsValue)
| JsObject (fields : list (string * JsValue)).

(** [!!v] is [false] exactly on the falsy values. *)
Definition truthy (v : JsValue) : bool :=
  match v with
  | JsUndefined | JsNull | JsNaN => false
  | JsBoolean b => b
  | JsNumber n => negb (n =? 0)%Z
  | JsString s => negb (String.eqb s "")
  | JsRegExp _ | JsFunction _ | JsArray _ | JsObject _ => true
  end.

(** [v instanceof Object]: primitives are not instances, everything built
    by a constructor is. *)
Definition instanceofObject (v : JsValue) : bool :=
  match v with
  | JsRegExp _ | JsFunction _ | JsArray _ | JsObject _ => true
  | _ => false
  end.

(** The object a property decorator receives (the prototype of the decorated
    class); the decorators only read its [constructor]. *)
Record Object := { constructor : Function }.

(** ** Validation types

    Modelled from the spec: [ValidationTypes] (validation/ValidationTypes.ts)
    is not part of the sources.  The spec calls [kind] an enum identifying
    which predicate to apply; the constants are the ones the decorators
    name. *)
Inductive ValidationTypes : Type :=
| CUSTOM_VALIDATION | NESTED_VALIDATION
| IS_EQUAL | IS_NOT_EQUAL | IS_EMPTY | IS_NOT_EMPTY | IS_IN | IS_NOT_IN
| IS_BOOLEAN | IS_DATE | IS_NUMBER | IS_STRING
| IS_DIVISIBLE_BY | IS_DECIMAL | IS_FLOAT | IS_POSITIVE_FLOAT
| IS_NEGATIVE_FLOAT | IS_INT | IS_POSITIVE_INT | IS_NEGATIVE_INT
| IS_GREATER | IS_LESS
| IS_MIN_DATE | IS_MAX_DATE
| IS_MATCH
| IS_BOOLEAN_STRING | IS_DATE_STRING | IS_NUMERIC_STRING
| IS_CONTAIN | IS_NOT_CONTAIN | IS_ALPHA | IS_ALPHANUMERIC | IS_ASCII
| IS_BASE64 | IS_BYTE_LENGTH | IS_CREDIT_CARD | IS_CURRENCY | IS_EMAIL
| IS_FQDN | IS_FULL_WIDTH | IS_HALF_WIDTH | IS_VARIABLE_WIDTH
| IS_HEX_COLOR | IS_HEXADECIMAL | IS_IP | IS_ISBN | IS_ISIN | IS_ISO8601
| IS_JSON | IS_LENGTH | IS_LOWERCASE | IS_MOBILE_PHONE | IS_MONGO_ID
| IS_MULTIBYTE | IS_SURROGATE_PAIR | IS_URL | IS_UUID | IS_UPPERCASE
| MIN_LENGTH | MAX_LENGTH
| IS_CONTAIN_IN_ARRAY | IS_NOT_CONTAIN_IN_ARRAY | IS_NOT_EMPTY_ARRAY
| IS_MIN_SIZE | IS_MAX_SIZE | IS_ALL_UNIQUE.

(** ** Metadata *)

(** The object literal every decorator builds.  A property the literal does
    not mention reads as [undefined]. *)
Record ValidationMetadataArgs := {
  type : ValidationTypes;
  target : Function;
  propertyName : string;
  value1 : JsValue;
  value2 : JsValue;
  validationOptions : JsValue
}.

(** Modelled from the spec: the class [ValidationMetadata]
    (metadata/ValidationMetadata.ts) is not part of the sources.  It is the
    spec's Rule Descriptor: kind, ownerType, fieldName, arg1, arg2 and the
    options attached to the rule. *)
Record ValidationMetadata := {
  kind : ValidationTypes;
  ownerType : Function;
  fieldName : string;
  arg1 : JsValue;
  arg2 : JsValue;
  options : JsValue
}.

(** Modelled from the spec: the constructor of [ValidationMetadata] is
    missing with its class; a descriptor is made of the arguments it is
    given, slot by slot. *)
Definition new_ValidationMetadata (args : ValidationMetadataArgs) : ValidationMetadata :=
  {| kind := type args;
     ownerType := target args;
     fieldName := propertyName args;
     arg1 := value1 args;
     arg2 := value2 args;
     options := validationOptions args |}.

(** Modelled from the spec: the class [ConstraintMetadata]
    (metadata/ConstraintMetadata.ts) is not part of the sources.  It is the
    spec's Constraint Catalog Entry for a custom constraint: the evaluator
    class and the name it is registered under; the decorator may leave the
    name out. *)
Record ConstraintMetadata := {
  evaluator : Function;
  name : option string
}.

Definition new_ConstraintMetadata (target : Function) (name : option string) : ConstraintMetadata :=
  {| evaluator := target; name := name |}.

(** Modelled from the spec: [MetadataStorage] (metadata/MetadataStorage.ts)
    is not part of the sources.  The registry maps an owner type to the
    ordered sequence of its Rule Descriptors; custom constraints are kept in
    registration order. *)
Record MetadataStorage := {
  validationMetadatas : gmap positive (list ValidationMetadata);
  constraintMetadatas : list ConstraintMetadata
}.

Definition emptyStorage : MetadataStorage :=
  {| validationMetadatas := ∅; constraintMetadatas := [] |}.

(** The sequence registered for one owner type (its own rules only). *)
Definition descriptors (owner : Function) (st : MetadataStorage) : list ValidationMetadata :=
  default [] (validationMetadatas st !! owner).

(** ** Effects

    [getFromContainer(MetadataStorage)] always yields the same storage
    object, which the decorators mutate.  A computation threads that storage
    and either completes or throws one of the spec's configuration faults;
    a throw keeps the storage as it was when the fault was raised. *)
Inductive ConfigurationFault : Type :=
| UnknownConstraint
| DuplicateConstraintName (n : string)
| UnsupportedRuleKind.

Inductive Completion (A : Type) : Type :=
| Normal (a : A)
| Throw (e : ConfigurationFault).
Arguments Normal {A} a.
Arguments Throw {A} e.

Definition Eff (A : Type) : Type := MetadataStorage → Completion A * MetadataStorage.

Definition ret {A} (a : A) : Eff A := λ st, (Normal a, st).

Definition bind {A B} (m : Eff A) (k : A → Eff B) : Eff B :=
  λ st, match m st with
        | (Normal a, st') => k a st'
        | (Throw e, st') => (Throw e, st')
        end.

Definition throw {A} (e : ConfigurationFault) : Eff A := λ st, (Throw e, st).

Declare Scope eff_scope.
Delimit Scope eff_scope with eff.
Notation "m ;;; k" := (bind m (λ _, k)) (at level 100, right associativity) : eff_scope.

(** ** The storage operations *)

(** Modelled from the spec: [register(descriptor)] appends to the owner
    type's sequence; it never rejects and never deduplicates. *)
Definition register (metadata : ValidationMetadata) (st : MetadataStorage) : MetadataStorage :=
  {| validationMetadatas :=
       <[ownerType metadata := descriptors (ownerType metadata) st ++ [metadata]]>
         (validationMetadatas st);
     constraintMetadatas := constraintMetadatas st |}.

(** Modelled from the spec: [MetadataStorage.addValidationMetadata] is not
    part of the sources; it is the spec's [register]. *)
Definition addValidationMetadata (metadata : ValidationMetadata) : Eff unit :=
  λ st, (Normal tt, register metadata st).

(** A name is bound when some catalog entry carries it. *)
Definition isBound (n : string) (st : MetadataStorage) : bool :=
  bool_decide (Exists (λ m, name m = Some n) (constraintMetadatas st)).

(** The evaluator a name resolves to: the first entry carrying the name. *)
Definition resolve (n : string) (st : MetadataStorage) : option Function :=
  evaluator <$> head (filter (λ m, name m = Some n) (constraintMetadatas st)).

Definition bindConstraint (metadata : ConstraintMetadata) (st : MetadataStorage) : MetadataStorage :=
  {| validationMetadatas := validationMetadatas st;
     constraintMetadatas := constraintMetadatas st ++ [metadata] |}.

Definition unbindConstraint (n : string) (st : MetadataStorage) : MetadataStorage :=
  {| validationMetadatas := validationMetadatas st;
     constraintMetadatas := filter (λ m, name m ≠ Some n) (constraintMetadatas st) |}.

(** Modelled from the spec: [MetadataStorage.addConstraintMetadata] is not
    part of the sources; it is the spec's [registerCustomConstraint], which
    fails with [DuplicateConstraintName] if the name is already bound,
    unless the registration explicitly allows override.  An entry without a
    name binds no name, so it is never a duplicate. *)
Definition addConstraintMetadata (metadata : ConstraintMetadata) (allowOverride : bool) : Eff unit :=
  λ st,
    match name metadata with
    | None => (Normal tt, bindConstraint metadata st)
    | Some n =>
        if isBound n st then
          if allowOverride then (Normal tt, bindConstraint metadata (unbindConstraint n st))
          else (Throw (DuplicateConstraintName n), st)
        else (Normal tt, bindConstraint metadata st)
    end.

(** ** The decorators

    A property decorator is applied to the prototype of the decorated class
    and the name of the decorated property. *)
Definition PropertyDecorator : Type := Object → string → Eff unit.

(** *** System *)

(** Registers custom validator class.  The source hands the storage the
    metadata alone: no override is requested. *)
Definition ValidatorConstraint (name : option string) : Function → Eff unit :=
  λ target, addConstraintMetadata (new_ConstraintMetadata target name) false.

(** Performs validation based on the given custom validation class. Validation class must be decorated with ValidatorConstraint decorator. *)
Definition Validate (constraintClass validationOptions : JsValue) : PropertyDecorator :=
  λ object propertyName,
    let args := {| type := CUSTOM_VALIDATION;
                   target := constructor object;
                   propertyName := propertyName;
                   value1 := constraintClass;
                   value2 := JsUndefined;
                   validationOptions := validationOptions |} in
    addValidationMetadata (new_ValidationMetadata args).

(** Objects / object arrays marked with this decorator will also be validated. *)
Definition NestedValidation (validationOptions : JsValue) : PropertyDecorator :=
  λ object propertyName,
    let args := {| type := NESTED_VALIDATION;
                   target := constructor object;
                   propertyName := propertyName;
                   value1 := JsUndefined;
                   value2 := JsUndefined;
                   validationOptions := validationOptions |} in
    addValidationMetadata (new_ValidationMetadata args).

(** *** Common checkers *)

(** Checks if the value match ('===') the comparison. *)
Definition IsEqual (comparison validationOptions : JsValue) : PropertyDecorator :=
  λ object propertyName,
    let args := {| type := IS_EQUAL;
                   target := constructor object;
                   propertyName := propertyName;
                   value1 := comparison;
                   value2 := JsUndefined;
                   validationOptions := validationOptions |} in
    addValidationMetadata (new_ValidationMetadata args).

(** Checks if the value does not match ('!==') the comparison. *)
Definition IsNotEqual (comparison validationOptions : JsValue) : PropertyDecorator :=
  λ object propertyName,
    let args := {| type := IS_NOT_EQUAL;
                   target := constructor object;
                   propertyName := propertyName;
                   value1 := comparison;
                   value2 := JsUndefined;
                   validationOptions := validationOptions |} in
    addValidationMetadata (new_ValidationMetadata args).

(** Checks if given value is empty (=== '', === null, === undefined). *)
Definition IsEmpty (validationOptions : JsValue) : PropertyDecorator :=
  λ object propertyName,
    let args := {| type := IS_EMPTY;
                   target := constructor object;
                   propertyName := propertyName;
                   value1 := JsUndefined;
                   value2 := JsUndefined;
                   validationOptions := validationOptions |} in
    addValidationMetadata (new_ValidationMetadata args).

(** Checks if given value is not empty (!== '', !== null, !== undefined). *)
Definition IsNotEmpty (validationOptions : JsValue) : PropertyDecorator :=
  λ object propertyName,
    let args := {| type := IS_NOT_EMPTY;
                   target := constructor object;
                   propertyName := propertyName;
                   value1 := JsUndefined;
                   value2 := JsUndefined;
                   validationOptions := validationOptions |} in
    addValidationMetadata (new_ValidationMetadata args).

(** Checks if value is in a array of allowed values. *)
Definition IsIn (values validationOptions : JsValue) : PropertyDecorator :=
  λ object propertyName,
    let args := {| type := IS_IN;
                   target := constructor object;
                   propertyName := propertyName;
                   value1 := values;
                   value2 := JsUndefined;
                   validationOptions := validationOptions |} in
    addValidationMetadata (new_ValidationMetadata args).

(** Checks if value is not in a array of disallowed values. *)
Definition IsNotIn (values validationOptions : JsValue) : PropertyDecorator :=
  λ object propertyName,
    let args := {| type := IS_NOT_IN;
                   target := constructor object;
                   propertyName := propertyName;
                   value1 := values;
                   value2 := JsUndefined;
                   validationOptions := validationOptions |} in
    addValidationMetadata (new_ValidationMetadata args).

(** *** Type checkers *)

(** Checks if a value is a boolean. *)
Definition IsBoolean (validationOptions : JsValue) : PropertyDecorator :=
  λ object propertyName,
    let args := {| type := IS_BOOLEAN;
                   target := constructor object;
                   propertyName := propertyName;
                   value1 := JsUndefined;
                   value2 := JsUndefined;
                   validationOptions := validationOptions |} in
    addValidationMetadata (new_ValidationMetadata args).

(** Checks if a value is a date. *)
Definition IsDate (validationOptions : JsValue) : PropertyDecorator :=
  λ object propertyName,
    let args := {| type := IS_DATE;
                   target := constructor object;
                   propertyName := propertyName;
                   value1 := JsUndefined;
                   value2 := JsUndefined;
                   validationOptions := validationOptions |} in
    addValidationMetadata (new_ValidationMetadata args).

(** Checks if a value is a number. *)
Definition IsNumber (validationOptions : JsValue) : PropertyDecorator :=
  λ object propertyName,
    let args := {| type := IS_NUMBER;
                   target := constructor object;
                   propertyName := propertyName;
                   value1 := JsUndefined;
                   value2 := JsUndefined;
                   validationOptions := validationOptions |} in
    addValidationMetadata (new_ValidationMetadata args).

(** Checks if a value is a string. *)
Definition IsString (validationOptions : JsValue) : PropertyDecorator :=
  λ object propertyName,
    let args := {| type := IS_STRING;
                   target := constructor object;
                   propertyName := propertyName;
                   value1 := JsUndefined;
                   value2 := JsUndefined;
                   validationOptions := validationOptions |} in
    addValidationMetadata (new_ValidationMetadata args).

(** *** Number checkers *)

(** Checks if the value is a number that's divisible by another. *)
Definition IsDivisibleBy (num validationOptions : JsValue) : PropertyDecorator :=
  λ object propertyName,
    let args := {| type := IS_DIVISIBLE_BY;
                   target := constructor object;
                   propertyName := propertyName;
                   value1 := num;
                   value2 := JsUndefined;
                   validationOptions := validationOptions |} in
    addValidationMetadata (new_ValidationMetadata args).

(** Checks if the value represents a decimal number, such as 0.1, .3, 1.1, 1.00003, 4.0, etc. *)
Definition IsDecimal (validationOptions : JsValue) : PropertyDecorator :=
  λ object propertyName,
    let args := {| type := IS_DECIMAL;
                   target := constructor object;
                   propertyName := propertyName;
                   value1 := JsUndefined;
                   value2 := JsUndefined;
                   validationOptions := validationOptions |} in
    addValidationMetadata (new_ValidationMetadata args).

(** Checks if the value is a float number. *)
Definition IsFloat (options validationOptions : JsValue) : PropertyDecorator :=
  λ object propertyName,
    let args := {| type := IS_FLOAT;
                   target := constructor object;
                   propertyName := propertyName;
                   value1 := options;
                   value2 := JsUndefined;
                   validationOptions := validationOptions |} in
    addValidationMetadata (new_ValidationMetadata args).

(** Checks if the value is a positive float number. *)
Definition IsPositiveFloat (options validationOptions : JsValue) : PropertyDecorator :=
  λ object propertyName,
    let args := {| type := IS_POSITIVE_FLOAT;
                   target := constructor object;
                   propertyName := propertyName;
                   value1 := options;
                   value2 := JsUndefined;
                   validationOptions := validationOptions |} in
    addValidationMetadata (new_ValidationMetadata args).

(** Checks if the value is a negative float number. *)
Definition IsNegativeFloat (options validationOptions : JsValue) : PropertyDecorator :=
  λ object propertyName,
    let args := {| type := IS_NEGATIVE_FLOAT;
                   target := constructor object;
                   propertyName := propertyName;
                   value1 := options;
                   value2 := JsUndefined;
                   validationOptions := validationOptions |} in
    addValidationMetadata (new_ValidationMetadata args).

(** Checks if the value is an integer number. *)
Definition IsInt (options validationOptions : JsValue) : PropertyDecorator :=
  λ object propertyName,
    let args := {| type := IS_INT;
                   target := constructor object;
                   propertyName := propertyName;
                   value1 := options;
                   value2 := JsUndefined;
                   validationOptions := validationOptions |} in
    addValidationMetadata (new_ValidationMetadata args).

(** Checks if the value is a positive integer number. *)
Definition IsPositiveInt (options validationOptions : JsValue) : PropertyDecorator :=
  λ object propertyName,
    let args := {| type := IS_POSITIVE_INT;
                   target := constructor object;
                   propertyName := propertyName;
                   value1 := options;
                   value2 := JsUndefined;
                   validationOptions := validationOptions |} in
    addValidationMetadata (new_ValidationMetadata args).

(** Checks if the value is a negative integer number. *)
Definition IsNegativeInt (options validationOptions : JsValue) : PropertyDecorator :=
  λ object propertyName,
    let args := {| type := IS_NEGATIVE_INT;
                   target := constructor object;
                   propertyName := propertyName;
                   value1 := options;
                   value2 := JsUndefined;
                   validationOptions := validationOptions |} in
    addValidationMetadata (new_ValidationMetadata args).

(** Checks if the given number is greater then given number. *)
Definition IsGreater (min validationOptions : JsValue) : PropertyDecorator :=
  λ object propertyName,
    let args := {| type := IS_GREATER;
                   target := constructor object;
                   propertyName := propertyName;
                   value1 := min;
                   value2 := JsUndefined;
                   validationOptions := validationOptions |} in
    addValidationMetadata (new_ValidationMetadata args).

(** Checks if the given number is less then given number. *)
Definition IsLess (max validationOptions : JsValue) : PropertyDecorator :=
  λ object propertyName,
    let args := {| type := IS_LESS;
                   target := constructor object;
                   propertyName := propertyName;
                   value1 := max;
                   value2 := JsUndefined;
                   validationOptions := validationOptions |} in
    addValidationMetadata (new_ValidationMetadata args).

(** *** Date checkers *)

(** Checks if the value is a date that's after the specified date. *)
Definition IsMinDate (date validationOptions : JsValue) : PropertyDecorator :=
  λ object propertyName,
    let args := {| type := IS_MIN_DATE;
                   target := constructor object;
                   propertyName := propertyName;
                   value1 := date;
                   value2 := JsUndefined;
                   validationOptions := validationOptions |} in
    addValidationMetadata (new_ValidationMetadata args).

(** Checks if the value is a date that's before the specified date. *)
Definition IsMaxDate (date validationOptions : JsValue) : PropertyDecorator :=
  λ object propertyName,
    let args := {| type := IS_MAX_DATE;
                   target := constructor object;
                   propertyName := propertyName;
                   value1 := date;
                   value2 := JsUndefined;
                   validationOptions := validationOptions |} in
    addValidationMetadata (new_ValidationMetadata args).

(** *** Regexp checkers *)

(** Checks if string matches the pattern. Either matches('foo', /foo/i) or matches('foo', 'foo', 'i').
    The two declared overloads share this implementation, which tells them
    apart by looking at its second argument. *)
Definition IsMatch (pattern modifiersOrAnnotationOptions validationOptions : JsValue) : PropertyDecorator :=
  let '(modifiers, validationOptions) :=
    if truthy modifiersOrAnnotationOptions
       && instanceofObject modifiersOrAnnotationOptions
       && negb (truthy validationOptions)
    then (JsUndefined, modifiersOrAnnotationOptions)
    else (modifiersOrAnnotationOptions, validationOptions) in
  λ object propertyName,
    let args := {| type := IS_MATCH;
                   target := constructor object;
                   propertyName := propertyName;
                   value1 := pattern;
                   value2 := modifiers;
                   validationOptions := validationOptions |} in
    addValidationMetadata (new_ValidationMetadata args).

(** *** String-as-types checkers *)

(** Checks if a string is a boolean. *)
Definition IsBooleanString (validationOptions : JsValue) : PropertyDecorator :=
  λ object propertyName,
    let args := {| type := IS_BOOLEAN_STRING;
                   target := constructor object;
                   propertyName := propertyName;
                   value1 := JsUndefined;
                   value2 := JsUndefined;
                   validationOptions := validationOptions |} in
    addValidationMetadata (new_ValidationMetadata args).

(** Checks if the string is a date. *)
Definition IsDateString (validationOptions : JsValue) : PropertyDecorator :=
  λ object propertyName,
    let args := {| type := IS_DATE_STRING;
                   target := constructor object;
                   propertyName := propertyName;
                   value1 := JsUndefined;
                   value2 := JsUndefined;
                   validationOptions := validationOptions |} in
    addValidationMetadata (new_ValidationMetadata args).

(** Checks if the string is numeric. *)
Definition IsNumericString (validationOptions : JsValue) : PropertyDecorator :=
  λ object propertyName,
    let args := {| type := IS_NUMERIC_STRING;
                   target := constructor object;
                   propertyName := propertyName;
                   value1 := JsUndefined;
                   value2 := JsUndefined;
                   validationOptions := validationOptions |} in
    addValidationMetadata (new_ValidationMetadata args).

(** *** String checkers *)

(** Checks if the string contains the seed. *)
Definition IsContain (seed validationOptions : JsValue) : PropertyDecorator :=
  λ object propertyName,
    let args := {| type := IS_CONTAIN;
                   target := constructor object;
                   propertyName := propertyName;
                   value1 := seed;
                   value2 := JsUndefined;
                   validationOptions := validationOptions |} in
    addValidationMetadata (new_ValidationMetadata args).

(** Checks if the string does not contain the seed. *)
Definition IsNotContain (seed validationOptions : JsValue) : PropertyDecorator :=
  λ object propertyName,
    let args := {| type := IS_NOT_CONTAIN;
                   target := constructor object;
                   propertyName := propertyName;
                   value1 := seed;
                   value2 := JsUndefined;
                   validationOptions := validationOptions |} in
    addValidationMetadata (new_ValidationMetadata args).

(** Checks if the string contains only letters (a-zA-Z). *)
Definition IsAlpha (validationOptions : JsValue) : PropertyDecorator :=
  λ object propertyName,
    let args := {| type := IS_ALPHA;
                   target := constructor object;
                   propertyName := propertyName;
                   value1 := JsUndefined;
                   value2 := JsUndefined;
                   validationOptions := validationOptions |} in
    addValidationMetadata (new_ValidationMetadata args).

(** Checks if the string contains only letters and numbers. *)
Definition IsAlphanumeric (validationOptions : JsValue) : PropertyDecorator :=
  λ object propertyName,
    let args := {| type := IS_ALPHANUMERIC;
                   target := constructor object;
                   propertyName := propertyName;
                   value1 := JsUndefined;
                   value2 := JsUndefined;
                   validationOptions := validationOptions |} in
    addValidationMetadata (new_ValidationMetadata args).

(** Checks if the string contains ASCII chars only. *)
Definition IsAscii (validationOptions : JsValue) : PropertyDecorator :=
  λ object propertyName,
    let args := {| type := IS_ASCII;
                   target := constructor object;
                   propertyName := propertyName;
                   value1 := JsUndefined;
                   value2 := JsUndefined;
                   validationOptions := validationOptions |} in
    addValidationMetadata (new_ValidationMetadata args).

(** Checks if a string is base64 encoded. *)
Definition IsBase64 (validationOptions : JsValue) : PropertyDecorator :=
  λ object propertyName,
    let args := {| type := IS_BASE64;
                   target := constructor object;
                   propertyName := propertyName;
                   value1 := JsUndefined;
                   value2 := JsUndefined;
                   validationOptions := validationOptions |} in
    addValidationMetadata (new_ValidationMetadata args).

(** Checks if the string's length (in bytes) falls in a range. *)
Definition IsByteLength (min max validationOptions : JsValue) : PropertyDecorator :=
  λ object propertyName,
    let args := {| type := IS_BYTE_LENGTH;
                   target := constructor object;
                   propertyName := propertyName;
                   value1 := min;
                   value2 := max;
                   validationOptions := validationOptions |} in
    addValidationMetadata (new_ValidationMetadata args).

(** Checks if the string is a credit card. *)
Definition IsCreditCard (validationOptions : JsValue) : PropertyDecorator :=
  λ object propertyName,
    let args := {| type := IS_CREDIT_CARD;
                   target := constructor object;
                   propertyName := propertyName;
                   value1 := JsUndefined;
                   value2 := JsUndefined;
                   validationOptions := validationOptions |} in
    addValidationMetadata (new_ValidationMetadata args).

(** Checks if the string is a valid currency amount. *)
Definition IsCurrency (options validationOptions : JsValue) : PropertyDecorator :=
  λ object propertyName,
    let args := {| type := IS_CURRENCY;
                   target := constructor object;
                   propertyName := propertyName;
                   value1 := options;
                   value2 := JsUndefined;
                   validationOptions := validationOptions |} in
    addValidationMetadata (new_ValidationMetadata args).

(** Checks if the string is an email. *)
Definition IsEmail (options validationOptions : JsValue) : PropertyDecorator :=
  λ object propertyName,
    let args := {| type := IS_EMAIL;
                   target := constructor object;
                   propertyName := propertyName;
                   value1 := options;
                   value2 := JsUndefined;
                   validationOptions := validationOptions |} in
    addValidationMetadata (new_ValidationMetadata args).

(** Checks if the string is a fully qualified domain name (e.g. domain.com). *)
Definition IsFQDN (options validationOptions : JsValue) : PropertyDecorator :=
  λ object propertyName,
    let args := {| type := IS_FQDN;
                   target := constructor object;
                   propertyName := propertyName;
                   value1 := options;
                   value2 := JsUndefined;
                   validationOptions := validationOptions |} in
    addValidationMetadata (new_ValidationMetadata args).

(** Checks if the string contains any full-width chars. *)
Definition IsFullWidth (validationOptions : JsValue) : PropertyDecorator :=
  λ object propertyName,
    let args := {| type := IS_FULL_WIDTH;
                   target := constructor object;
                   propertyName := propertyName;
                   value1 := JsUndefined;
                   value2 := JsUndefined;
                   validationOptions := validationOptions |} in
    addValidationMetadata (new_ValidationMetadata args).

(** Checks if the string contains any half-width chars. *)
Definition IsHalfWidth (validationOptions : JsValue) : PropertyDecorator :=
  λ object propertyName,
    let args := {| type := IS_HALF_WIDTH;
                   target := constructor object;
                   propertyName := propertyName;
                   value1 := JsUndefined;
                   value2 := JsUndefined;
                   validationOptions := validationOptions |} in
    addValidationMetadata (new_ValidationMetadata args).

(** Checks if the string contains a mixture of full and half-width chars. *)
Definition IsVariableWidth (validationOptions : JsValue) : PropertyDecorator :=
  λ object propertyName,
    let args := {| type := IS_VARIABLE_WIDTH;
                   target := constructor object;
                   propertyName := propertyName;
                   value1 := JsUndefined;
                   value2 := JsUndefined;
                   validationOptions := validationOptions |} in
    addValidationMetadata (new_ValidationMetadata args).

(** Checks if the string is a hexadecimal color. *)
Definition IsHexColor (validationOptions : JsValue) : PropertyDecorator :=
  λ object propertyName,
    let args := {| type := IS_HEX_COLOR;
                   target := constructor object;
                   propertyName := propertyName;
                   value1 := JsUndefined;
                   value2 := JsUndefined;
                   validationOptions := validationOptions |} in
    addValidationMetadata (new_ValidationMetadata args).

(** Checks if the string is a hexadecimal number. *)
Definition IsHexadecimal (validationOptions : JsValue) : PropertyDecorator :=
  λ object propertyName,
    let args := {| type := IS_HEXADECIMAL;
                   target := constructor object;
                   propertyName := propertyName;
                   value1 := JsUndefined;
                   value2 := JsUndefined;
                   validationOptions := validationOptions |} in
    addValidationMetadata (new_ValidationMetadata args).

(** Checks if the string is an IP (version 4 or 6). *)
Definition IsIP (version validationOptions : JsValue) : PropertyDecorator :=
  λ object propertyName,
    let args := {| type := IS_IP;
                   target := constructor object;
                   propertyName := propertyName;
                   value1 := version;
                   value2 := JsUndefined;
                   validationOptions := validationOptions |} in
    addValidationMetadata (new_ValidationMetadata args).

(** Checks if the string is an ISBN (version 10 or 13). *)
Definition IsISBN (version validationOptions : JsValue) : PropertyDecorator :=
  λ object propertyName,
    let args := {| type := IS_ISBN;
                   target := constructor object;
                   propertyName := propertyName;
                   value1 := version;
                   value2 := JsUndefined;
                   validationOptions := validationOptions |} in
    addValidationMetadata (new_ValidationMetadata args).

(** Checks if the string is an ISIN (stock/security identifier). *)
Definition IsISIN (validationOptions : JsValue) : PropertyDecorator :=
  λ object propertyName,
    let args := {| type := IS_ISIN;
                   target := constructor object;
                   propertyName := propertyName;
                   value1 := JsUndefined;
                   value2 := JsUndefined;
                   validationOptions := validationOptions |} in
    addValidationMetadata (new_ValidationMetadata args).

(** Checks if the string is a valid ISO 8601 date. *)
Definition IsISO8601 (validationOptions : JsValue) : PropertyDecorator :=
  λ object propertyName,
    let args := {| type := IS_ISO8601;
                   target := constructor object;
                   propertyName := propertyName;
                   value1 := JsUndefined;
                   value2 := JsUndefined;
                   validationOptions := validationOptions |} in
    addValidationMetadata (new_ValidationMetadata args).

(** Checks if the string is valid JSON (note: uses JSON.parse). *)
Definition IsJSON (validationOptions : JsValue) : PropertyDecorator :=
  λ object propertyName,
    let args := {| type := IS_JSON;
                   target := constructor object;
                   propertyName := propertyName;
                   value1 := JsUndefined;
                   value2 := JsUndefined;
                   validationOptions := validationOptions |} in
    addValidationMetadata (new_ValidationMetadata args).

(** Checks if the string's length falls in a range. Note: this function takes into account surrogate pairs. *)
Definition IsLength (min max validationOptions : JsValue) : PropertyDecorator :=
  λ object propertyName,
    let args := {| type := IS_LENGTH;
                   target := constructor object;
                   propertyName := propertyName;
                   value1 := min;
                   value2 := max;
                   validationOptions := validationOptions |} in
    addValidationMetadata (new_ValidationMetadata args).

(** Checks if the string is lowercase. *)
Definition IsLowercase (validationOptions : JsValue) : PropertyDecorator :=
  λ object propertyName,
    let args := {| type := IS_LOWERCASE;
                   target := constructor object;
                   propertyName := propertyName;
                   value1 := JsUndefined;
                   value2 := JsUndefined;
                   validationOptions := validationOptions |} in
    addValidationMetadata (new_ValidationMetadata args).

(** Checks if the string is a mobile phone number (locale is one of ['zh-CN', 'zh-TW', 'en-ZA', 'en-AU', 'en-HK', 'pt-PT', 'fr-FR', 'el-GR', 'en-GB', 'en-US', 'en-ZM', 'ru-RU', 'nb-NO', 'nn-NO', 'vi-VN', 'en-NZ']). *)
Definition IsMobilePhone (locale validationOptions : JsValue) : PropertyDecorator :=
  λ object propertyName,
    let args := {| type := IS_MOBILE_PHONE;
                   target := constructor object;
                   propertyName := propertyName;
                   value1 := locale;
                   value2 := JsUndefined;
                   validationOptions := validationOptions |} in
    addValidationMetadata (new_ValidationMetadata args).

(** Checks if the string is a valid hex-encoded representation of a MongoDB ObjectId. *)
Definition IsMongoId (validationOptions : JsValue) : PropertyDecorator :=
  λ object propertyName,
    let args := {| type := IS_MONGO_ID;
                   target := constructor object;
                   propertyName := propertyName;
                   value1 := JsUndefined;
                   value2 := JsUndefined;
                   validationOptions := validationOptions |} in
    addValidationMetadata (new_ValidationMetadata args).

(** Checks if the string contains one or more multibyte chars. *)
Definition IsMultibyte (validationOptions : JsValue) : PropertyDecorator :=
  λ object propertyName,
    let args := {| type := IS_MULTIBYTE;
                   target := constructor object;
                   propertyName := propertyName;
                   value1 := JsUndefined;
                   value2 := JsUndefined;
                   validationOptions := validationOptions |} in
    addValidationMetadata (new_ValidationMetadata args).

(** Checks if the string contains any surrogate pairs chars. *)
Definition IsSurrogatePair (validationOptions : JsValue) : PropertyDecorator :=
  λ object propertyName,
    let args := {| type := IS_SURROGATE_PAIR;
                   target := constructor object;
                   propertyName := propertyName;
                   value1 := JsUndefined;
                   value2 := JsUndefined;
                   validationOptions := validationOptions |} in
    addValidationMetadata (new_ValidationMetadata args).

(** Checks if the string is an url. *)
Definition IsUrl (options validationOptions : JsValue) : PropertyDecorator :=
  λ object propertyName,
    let args := {| type := IS_URL;
                   target := constructor object;
                   propertyName := propertyName;
                   value1 := options;
                   value2 := JsUndefined;
                   validationOptions := validationOptions |} in
    addValidationMetadata (new_ValidationMetadata args).

(** Checks if the string is a UUID (version 3, 4 or 5). *)
Definition IsUUID (version validationOptions : JsValue) : PropertyDecorator :=
  λ object propertyName,
    let args := {| type := IS_UUID;
                   target := constructor object;
                   propertyName := propertyName;
                   value1 := version;
                   value2 := JsUndefined;
                   validationOptions := validationOptions |} in
    addValidationMetadata (new_ValidationMetadata args).

(** Checks if the string is uppercase. *)
Definition IsUppercase (validationOptions : JsValue) : PropertyDecorator :=
  λ object propertyName,
    let args := {| type := IS_UPPERCASE;
                   target := constructor object;
                   propertyName := propertyName;
                   value1 := JsUndefined;
                   value2 := JsUndefined;
                   validationOptions := validationOptions |} in
    addValidationMetadata (new_ValidationMetadata args).

(** Checks if the string's length is not less then given number. Note: this function takes into account surrogate pairs. *)
Definition IsMinLength (min validationOptions : JsValue) : PropertyDecorator :=
  λ object propertyName,
    let args := {| type := MIN_LENGTH;
                   target := constructor object;
                   propertyName := propertyName;
                   value1 := min;
                   value2 := JsUndefined;
                   validationOptions := validationOptions |} in
    addValidationMetadata (new_ValidationMetadata args).

(** Checks if the string's length is not more then given number. Note: this function takes into account surrogate pairs. *)
Definition IsMaxLength (max validationOptions : JsValue) : PropertyDecorator :=
  λ object propertyName,
    let args := {| type := MAX_LENGTH;
                   target := constructor object;
                   propertyName := propertyName;
                   value1 := max;
                   value2 := JsUndefined;
                   validationOptions := validationOptions |} in
    addValidationMetadata (new_ValidationMetadata args).

(** *** Array checkers *)

(** Checks if array contains all values from the given array of values. *)
Definition IsContainInArray (values validationOptions : JsValue) : PropertyDecorator :=
  λ object propertyName,
    let args := {| type := IS_CONTAIN_IN_ARRAY;
                   target := constructor object;
                   propertyName := propertyName;
                   value1 := values;
                   value2 := JsUndefined;
                   validationOptions := validationOptions |} in
    addValidationMetadata (new_ValidationMetadata args).

(** Checks if array does not contain any of the given values. *)
Definition IsNotContainInArray (values validationOptions : JsValue) : PropertyDecorator :=
  λ object propertyName,
    let args := {| type := IS_NOT_CONTAIN_IN_ARRAY;
                   target := constructor object;
                   propertyName := propertyName;
                   value1 := values;
                   value2 := JsUndefined;
                   validationOptions := validationOptions |} in
    addValidationMetadata (new_ValidationMetadata args).

(** Checks if given array is not empty. *)
Definition IsNotEmptyArray (validationOptions : JsValue) : PropertyDecorator :=
  λ object propertyName,
    let args := {| type := IS_NOT_EMPTY_ARRAY;
                   target := constructor object;
                   propertyName := propertyName;
                   value1 := JsUndefined;
                   value2 := JsUndefined;
                   validationOptions := validationOptions |} in
    addValidationMetadata (new_ValidationMetadata args).

(** Checks if array's length is as minimal this number. *)
Definition IsMinSize (min validationOptions : JsValue) : PropertyDecorator :=
  λ object propertyName,
    let args := {| type := IS_MIN_SIZE;
                   target := constructor object;
                   propertyName := propertyName;
                   value1 := min;
                   value2 := JsUndefined;
                   validationOptions := validationOptions |} in
    addValidationMetadata (new_ValidationMetadata args).

(** Checks if array's length is as maximal this number. *)
Definition IsMaxSize (max validationOptions : JsValue) : PropertyDecorator :=
  λ object propertyName,
    let args := {| type := IS_MAX_SIZE;
                   target := constructor object;
                   propertyName := propertyName;
                   value1 := max;
                   value2 := JsUndefined;
                   validationOptions := validationOptions |} in
    addValidationMetadata (new_ValidationMetadata args).

(** Checks if all array's values are unique. Comparison for objects is reference-based. *)
Definition IsAllUnique (validationOptions : JsValue) : PropertyDecorator :=
  λ object propertyName,
    let args := {| type := IS_ALL_UNIQUE;
                   target := constructor object;
                   propertyName := propertyName;
                   value1 := JsUndefined;
                   value2 := JsUndefined;
                   validationOptions := validationOptions |} in
    addValidationMetadata (new_ValidationMetadata args).

(** ** Decorator applications

    A [Call.t] is one call of a rule decorator as the caller writes it, one
    constructor per declared signature ([IsMatch] declares two); [decorate]
    runs the decorator the call names. *)
Module Call.
Inductive t : Type :=
| Validate (constraintClass validationOptions : JsValue)
| NestedValidation (validationOptions : JsValue)
| IsEqual (comparison validationOptions : JsValue)
| IsNotEqual (comparison validationOptions : JsValue)
| IsEmpty (validationOptions : JsValue)
| IsNotEmpty (validationOptions : JsValue)
| IsIn (values validationOptions : JsValue)
| IsNotIn (values validationOptions : JsValue)
| IsBoolean (validationOptions : JsValue)
| IsDate (validationOptions : JsValue)
| IsNumber (validationOptions : JsValue)
| IsString (validationOptions : JsValue)
| IsDivisibleBy (num validationOptions : JsValue)
| IsDecimal (validationOptions : JsValue)
| IsFloat (options validationOptions : JsValue)
| IsPositiveFloat (options validationOptions : JsValue)
| IsNegativeFloat (options validationOptions : JsValue)
| IsInt (options validationOptions : JsValue)
| IsPositiveInt (options validationOptions : JsValue)
| IsNegativeInt (options validationOptions : JsValue)
| IsGreater (min validationOptions : JsValue)
| IsLess (max validationOptions : JsValue)
| IsMinDate (date validationOptions : JsValue)
| IsMaxDate (date validationOptions : JsValue)
| IsMatch (pattern validationOptions : JsValue)
| IsMatchModifiers (pattern modifiers validationOptions : JsValue)
| IsBooleanString (validationOptions : JsValue)
| IsDateString (validationOptions : JsValue)
| IsNumericString (validationOptions : JsValue)
| IsContain (seed validationOptions : JsValue)
| IsNotContain (seed validationOptions : JsValue)
| IsAlpha (validationOptions : JsValue)
| IsAlphanumeric (validationOptions : JsValue)
| IsAscii (validationOptions : JsValue)
| IsBase64 (validationOptions : JsValue)
| IsByteLength (min max validationOptions : JsValue)
| IsCreditCard (validationOptions : JsValue)
| IsCurrency (options validationOptions : JsValue)
| IsEmail (options validationOptions : JsValue)
| IsFQDN (options validationOptions : JsValue)
| IsFullWidth (validationOptions : JsValue)
| IsHalfWidth (validationOptions : JsValue)
| IsVariableWidth (validationOptions : JsValue)
| IsHexColor (validationOptions : JsValue)
| IsHexadecimal (validationOptions : JsValue)
| IsIP (version validationOptions : JsValue)
| IsISBN (version validationOptions : JsValue)
| IsISIN (validationOptions : JsValue)
| IsISO8601 (validationOptions : JsValue)
| IsJSON (validationOptions : JsValue)
| IsLength (min max validationOptions : JsValue)
| IsLowercase (validationOptions : JsValue)
| IsMobilePhone (locale validationOptions : JsValue)
| IsMongoId (validationOptions : JsValue)
| IsMultibyte (validationOptions : JsValue)
| IsSurrogatePair (validationOptions : JsValue)
| IsUrl (options validationOptions : JsValue)
| IsUUID (version validationOptions : JsValue)
| IsUppercase (validationOptions : JsValue)
| IsMinLength (min validationOptions : JsValue)
| IsMaxLength (max validationOptions : JsValue)
| IsContainInArray (values validationOptions : JsValue)
| IsNotContainInArray (values validationOptions : JsValue)
| IsNotEmptyArray (validationOptions : JsValue)
| IsMinSize (min validationOptions : JsValue)
| IsMaxSize (max validationOptions : JsValue)
| IsAllUnique (validationOptions : JsValue).
End Call.

Definition decorate (c : Call.t) : PropertyDecorator :=
  match c with
  | Call.Validate constraintClass validationOptions => Validate constraintClass validationOptions
  | Call.NestedValidation validationOptions => NestedValidation validationOptions
  | Call.IsEqual comparison validationOptions => IsEqual comparison validationOptions
  | Call.IsNotEqual comparison validationOptions => IsNotEqual comparison validationOptions
  | Call.IsEmpty validationOptions => IsEmpty validationOptions
  | Call.IsNotEmpty validationOptions => IsNotEmpty validationOptions
  | Call.IsIn values validationOptions => IsIn values validationOptions
  | Call.IsNotIn values validationOptions => IsNotIn values validationOptions
  | Call.IsBoolean validationOptions => IsBoolean validationOptions
  | Call.IsDate validationOptions => IsDate validationOptions
  | Call.IsNumber validationOptions => IsNumber validationOptions
  | Call.IsString validationOptions => IsString validationOptions
  | Call.IsDivisibleBy num validationOptions => IsDivisibleBy num validationOptions
  | Call.IsDecimal validationOptions => IsDecimal validationOptions
  | Call.IsFloat options validationOptions => IsFloat options validationOptions
  | Call.IsPositiveFloat options validationOptions => IsPositiveFloat options validationOptions
  | Call.IsNegativeFloat options validationOptions => IsNegativeFloat options validationOptions
  | Call.IsInt options validationOptions => IsInt options validationOptions
  | Call.IsPositiveInt options validationOptions => IsPositiveInt options validationOptions
  | Call.IsNegativeInt options validationOptions => IsNegativeInt options validationOptions
  | Call.IsGreater min validationOptions => IsGreater min validationOptions
  | Call.IsLess max validationOptions => IsLess max validationOptions
  | Call.IsMinDate date validationOptions => IsMinDate date validationOptions
  | Call.IsMaxDate date validationOptions => IsMaxDate date validationOptions
  | Call.IsMatch pattern validationOptions => IsMatch pattern validationOptions JsUndefined
  | Call.IsMatchModifiers pattern modifiers validationOptions => IsMatch pattern modifiers validationOptions
  | Call.IsBooleanString validationOptions => IsBooleanString validationOptions
  | Call.IsDateString validationOptions => IsDateString validationOptions
  | Call.IsNumericString validationOptions => IsNumericString validationOptions
  | Call.IsContain seed validationOptions => IsContain seed validationOptions
  | Call.IsNotContain seed validationOptions => IsNotContain seed validationOptions
  | Call.IsAlpha validationOptions => IsAlpha validationOptions
  | Call.IsAlphanumeric validationOptions => IsAlphanumeric validationOptions
  | Call.IsAscii validationOptions => IsAscii validationOptions
  | Call.IsBase64 validationOptions => IsBase64 validationOptions
  | Call.IsByteLength min max validationOptions => IsByteLength min max validationOptions
  | Call.IsCreditCard validationOptions => IsCreditCard validationOptions
  | Call.IsCurrency options validationOptions => IsCurrency options validationOptions
  | Call.IsEmail options validationOptions => IsEmail options validationOptions
  | Call.IsFQDN options validationOptions => IsFQDN options validationOptions
  | Call.IsFullWidth validationOptions => IsFullWidth validationOptions
  | Call.IsHalfWidth validationOptions => IsHalfWidth validationOptions
  | Call.IsVariableWidth validationOptions => IsVariableWidth validationOptions
  | Call.IsHexColor validationOptions => IsHexColor validationOptions
  | Call.IsHexadecimal validationOptions => IsHexadecimal validationOptions
  | Call.IsIP version validationOptions => IsIP version validationOptions
  | Call.IsISBN version validationOptions => IsISBN version validationOptions
  | Call.IsISIN validationOptions => IsISIN validationOptions
  | Call.IsISO8601 validationOptions => IsISO8601 validationOptions
  | Call.IsJSON validationOptions => IsJSON validationOptions
  | Call.IsLength min max validationOptions => IsLength min max validationOptions
  | Call.IsLowercase validationOptions => IsLowercase validationOptions
  | Call.IsMobilePhone locale validationOptions => IsMobilePhone locale validationOptions
  | Call.IsMongoId validationOptions => IsMongoId validationOptions
  | Call.IsMultibyte validationOptions => IsMultibyte validationOptions
  | Call.IsSurrogatePair validationOptions => IsSurrogatePair validationOptions
  | Call.IsUrl options validationOptions => IsUrl options validationOptions
  | Call.IsUUID version validationOptions => IsUUID version validationOptions
  | Call.IsUppercase validationOptions => IsUppercase validationOptions
  | Call.IsMinLength min validationOptions => IsMinLength min validationOptions
  | Call.IsMaxLength max validationOptions => IsMaxLength max validationOptions
  | Call.IsContainInArray values validationOptions => IsContainInArray values validationOptions
  | Call.IsNotContainInArray values validationOptions => IsNotContainInArray values validationOptions
  | Call.IsNotEmptyArray validationOptions => IsNotEmptyArray validationOptions
  | Call.IsMinSize min validationOptions => IsMinSize min validationOptions
  | Call.IsMaxSize max validationOptions => IsMaxSize max validationOptions
  | Call.IsAllUnique validationOptions => IsAllUnique validationOptions
  end.

(** What the caller passes, by the declared signature: the constant of the
    decorator, its first and second rule parameter, and its final
    [validationOptions] argument. *)
Definition kind_of (c : Call.t) : ValidationTypes :=
  match c with
  | Call.Validate _ _ => CUSTOM_VALIDATION
  | Call.NestedValidation _ => NESTED_VALIDATION
  | Call.IsEqual _ _ => IS_EQUAL
  | Call.IsNotEqual _ _ => IS_NOT_EQUAL
  | Call.IsEmpty _ => IS_EMPTY
  | Call.IsNotEmpty _ => IS_NOT_EMPTY
  | Call.IsIn _ _ => IS_IN
  | Call.IsNotIn _ _ => IS_NOT_IN
  | Call.IsBoolean _ => IS_BOOLEAN
  | Call.IsDate _ => IS_DATE
  | Call.IsNumber _ => IS_NUMBER
  | Call.IsString _ => IS_STRING
  | Call.IsDivisibleBy _ _ => IS_DIVISIBLE_BY
  | Call.IsDecimal _ => IS_DECIMAL
  | Call.IsFloat _ _ => IS_FLOAT
  | Call.IsPositiveFloat _ _ => IS_POSITIVE_FLOAT
  | Call.IsNegativeFloat _ _ => IS_NEGATIVE_FLOAT
  | Call.IsInt _ _ => IS_INT
  | Call.IsPositiveInt _ _ => IS_POSITIVE_INT
  | Call.IsNegativeInt _ _ => IS_NEGATIVE_INT
  | Call.IsGreater _ _ => IS_GREATER
  | Call.IsLess _ _ => IS_LESS
  | Call.IsMinDate _ _ => IS_MIN_DATE
  | Call.IsMaxDate _ _ => IS_MAX_DATE
  | Call.IsMatch _ _ | Call.IsMatchModifiers _ _ _ => IS_MATCH
  | Call.IsBooleanString _ => IS_BOOLEAN_STRING
  | Call.IsDateString _ => IS_DATE_STRING
  | Call.IsNumericString _ => IS_NUMERIC_STRING
  | Call.IsContain _ _ => IS_CONTAIN
  | Call.IsNotContain _ _ => IS_NOT_CONTAIN
  | Call.IsAlpha _ => IS_ALPHA
  | Call.IsAlphanumeric _ => IS_ALPHANUMERIC
  | Call.IsAscii _ => IS_ASCII
  | Call.IsBase64 _ => IS_BASE64
  | Call.IsByteLength _ _ _ => IS_BYTE_LENGTH
  | Call.IsCreditCard _ => IS_CREDIT_CARD
  | Call.IsCurrency _ _ => IS_CURRENCY
  | Call.IsEmail _ _ => IS_EMAIL
  | Call.IsFQDN _ _ => IS_FQDN
  | Call.IsFullWidth _ => IS_FULL_WIDTH
  | Call.IsHalfWidth _ => IS_HALF_WIDTH
  | Call.IsVariableWidth _ => IS_VARIABLE_WIDTH
  | Call.IsHexColor _ => IS_HEX_COLOR
  | Call.IsHexadecimal _ => IS_HEXADECIMAL
  | Call.IsIP _ _ => IS_IP
  | Call.IsISBN _ _ => IS_ISBN
  | Call.IsISIN _ => IS_ISIN
  | Call.IsISO8601 _ => IS_ISO8601
  | Call.IsJSON _ => IS_JSON
  | Call.IsLength _ _ _ => IS_LENGTH
  | Call.IsLowercase _ => IS_LOWERCASE
  | Call.IsMobilePhone _ _ => IS_MOBILE_PHONE
  | Call.IsMongoId _ => IS_MONGO_ID
  | Call.IsMultibyte _ => IS_MULTIBYTE
  | Call.IsSurrogatePair _ => IS_SURROGATE_PAIR
  | Call.IsUrl _ _ => IS_URL
  | Call.IsUUID _ _ => IS_UUID
  | Call.IsUppercase _ => IS_UPPERCASE
  | Call.IsMinLength _ _ => MIN_LENGTH
  | Call.IsMaxLength _ _ => MAX_LENGTH
  | Call.IsContainInArray _ _ => IS_CONTAIN_IN_ARRAY
  | Call.IsNotContainInArray _ _ => IS_NOT_CONTAIN_IN_ARRAY
  | Call.IsNotEmptyArray _ => IS_NOT_EMPTY_ARRAY
  | Call.IsMinSize _ _ => IS_MIN_SIZE
  | Call.IsMaxSize _ _ => IS_MAX_SIZE
  | Call.IsAllUnique _ => IS_ALL_UNIQUE
  end.

Definition value1_arg (c : Call.t) : JsValue :=
  match c with
  | Call.Validate x _ | Call.IsEqual x _ | Call.IsNotEqual x _ | Call.IsIn x _
  | Call.IsNotIn x _ | Call.IsDivisibleBy x _ | Call.IsFloat x _
  | Call.IsPositiveFloat x _ | Call.IsNegativeFloat x _ | Call.IsInt x _
  | Call.IsPositiveInt x _ | Call.IsNegativeInt x _ | Call.IsGreater x _
  | Call.IsLess x _ | Call.IsMinDate x _ | Call.IsMaxDate x _
  | Call.IsContain x _ | Call.IsNotContain x _ | Call.IsCurrency x _
  | Call.IsEmail x _ | Call.IsFQDN x _ | Call.IsIP x _ | Call.IsISBN x _
  | Call.IsMobilePhone x _ | Call.IsUrl x _ | Call.IsUUID x _
  | Call.IsMinLength x _ | Call.IsMaxLength x _ | Call.IsContainInArray x _
  | Call.IsNotContainInArray x _ | Call.IsMinSize x _ | Call.IsMaxSize x _
  | Call.IsMatch x _ | Call.IsByteLength x _ _ | Call.IsLength x _ _
  | Call.IsMatchModifiers x _ _ => x
  | Call.NestedValidation _ | Call.IsEmpty _ | Call.IsNotEmpty _
  | Call.IsBoolean _ | Call.IsDate _ | Call.IsNumber _ | Call.IsString _
  | Call.IsDecimal _ | Call.IsBooleanString _ | Call.IsDateString _
  | Call.IsNumericString _ | Call.IsAlpha _ | Call.IsAlphanumeric _
  | Call.IsAscii _ | Call.IsBase64 _ | Call.IsCreditCard _
  | Call.IsFullWidth _ | Call.IsHalfWidth _ | Call.IsVariableWidth _
  | Call.IsHexColor _ | Call.IsHexadecimal _ | Call.IsISIN _
  | Call.IsISO8601 _ | Call.IsJSON _ | Call.IsLowercase _ | Call.IsMongoId _
  | Call.IsMultibyte _ | Call.IsSurrogatePair _ | Call.IsUppercase _
  | Call.IsNotEmptyArray _ | Call.IsAllUnique _ => JsUndefined
  end.

Definition value2_arg (c : Call.t) : JsValue :=
  match c with
  | Call.IsByteLength _ y _ | Call.IsLength _ y _
  | Call.IsMatchModifiers _ y _ => y
  | _ => JsUndefined
  end.

Definition options_arg (c : Call.t) : JsValue :=
  match c with
  | Call.NestedValidation vo | Call.IsEmpty vo | Call.IsNotEmpty vo
  | Call.IsBoolean vo | Call.IsDate vo | Call.IsNumber vo | Call.IsString vo
  | Call.IsDecimal vo | Call.IsBooleanString vo | Call.IsDateString vo
  | Call.IsNumericString vo | Call.IsAlpha vo | Call.IsAlphanumeric vo
  | Call.IsAscii vo | Call.IsBase64 vo | Call.IsCreditCard vo
  | Call.IsFullWidth vo | Call.IsHalfWidth vo | Call.IsVariableWidth vo
  | Call.IsHexColor vo | Call.IsHexadecimal vo | Call.IsISIN vo
  | Call.IsISO8601 vo | Call.IsJSON vo | Call.IsLowercase vo
  | Call.IsMongoId vo | Call.IsMultibyte vo | Call.IsSurrogatePair vo
  | Call.IsUppercase vo | Call.IsNotEmptyArray vo | Call.IsAllUnique vo
  | Call.Validate _ vo | Call.IsEqual _ vo | Call.IsNotEqual _ vo
  | Call.IsIn _ vo | Call.IsNotIn _ vo | Call.IsDivisibleBy _ vo
  | Call.IsFloat _ vo | Call.IsPositiveFloat _ vo | Call.IsNegativeFloat _ vo
  | Call.IsInt _ vo | Call.IsPositiveInt _ vo | Call.IsNegativeInt _ vo
  | Call.IsGreater _ vo | Call.IsLess _ vo | Call.IsMinDate _ vo
  | Call.IsMaxDate _ vo | Call.IsContain _ vo | Call.IsNotContain _ vo
  | Call.IsCurrency _ vo | Call.IsEmail _ vo | Call.IsFQDN _ vo
  | Call.IsIP _ vo | Call.IsISBN _ vo | Call.IsMobilePhone _ vo
  | Call.IsUrl _ vo | Call.IsUUID _ vo | Call.IsMinLength _ vo
  | Call.IsMaxLength _ vo | Call.IsContainInArray _ vo
  | Call.IsNotContainInArray _ vo | Call.IsMinSize _ vo | Call.IsMaxSize _ vo
  | Call.IsMatch _ vo
  | Call.IsByteLength _ _ vo | Call.IsLength _ _ vo
  | Call.IsMatchModifiers _ _ vo => vo
  end.

(** The decorator function a call names; the two signatures of [IsMatch]
    name the same function. *)
Definition functionName (c : Call.t) : string :=
  match c with
  | Call.Validate _ _ => "Validate"
  | Call.NestedValidation _ => "NestedValidation"
  | Call.IsEqual _ _ => "IsEqual"
  | Call.IsNotEqual _ _ => "IsNotEqual"
  | Call.IsEmpty _ => "IsEmpty"
  | Call.IsNotEmpty _ => "IsNotEmpty"
  | Call.IsIn _ _ => "IsIn"
  | Call.IsNotIn _ _ => "IsNotIn"
  | Call.IsBoolean _ => "IsBoolean"
  | Call.IsDate _ => "IsDate"
  | Call.IsNumber _ => "IsNumber"
  | Call.IsString _ => "IsString"
  | Call.IsDivisibleBy _ _ => "IsDivisibleBy"
  | Call.IsDecimal _ => "IsDecimal"
  | Call.IsFloat _ _ => "IsFloat"
  | Call.IsPositiveFloat _ _ => "IsPositiveFloat"
  | Call.IsNegativeFloat _ _ => "IsNegativeFloat"
  | Call.IsInt _ _ => "IsInt"
  | Call.IsPositiveInt _ _ => "IsPositiveInt"
  | Call.IsNegativeInt _ _ => "IsNegativeInt"
  | Call.IsGreater _ _ => "IsGreater"
  | Call.IsLess _ _ => "IsLess"
  | Call.IsMinDate _ _ => "IsMinDate"
  | Call.IsMaxDate _ _ => "IsMaxDate"
  | Call.IsMatch _ _ => "IsMatch"
  | Call.IsMatchModifiers _ _ _ => "IsMatch"
  | Call.IsBooleanString _ => "IsBooleanString"
  | Call.IsDateString _ => "IsDateString"
  | Call.IsNumericString _ => "IsNumericString"
  | Call.IsContain _ _ => "IsContain"
  | Call.IsNotContain _ _ => "IsNotContain"
  | Call.IsAlpha _ => "IsAlpha"
  | Call.IsAlphanumeric _ => "IsAlphanumeric"
  | Call.IsAscii _ => "IsAscii"
  | Call.IsBase64 _ => "IsBase64"
  | Call.IsByteLength _ _ _ => "IsByteLength"
  | Call.IsCreditCard _ => "IsCreditCard"
  | Call.IsCurrency _ _ => "IsCurrency"
  | Call.IsEmail _ _ => "IsEmail"
  | Call.IsFQDN _ _ => "IsFQDN"
  | Call.IsFullWidth _ => "IsFullWidth"
  | Call.IsHalfWidth _ => "IsHalfWidth"
  | Call.IsVariableWidth _ => "IsVariableWidth"
  | Call.IsHexColor _ => "IsHexColor"
  | Call.IsHexadecimal _ => "IsHexadecimal"
  | Call.IsIP _ _ => "IsIP"
  | Call.IsISBN _ _ => "IsISBN"
  | Call.IsISIN _ => "IsISIN"
  | Call.IsISO8601 _ => "IsISO8601"
  | Call.IsJSON _ => "IsJSON"
  | Call.IsLength _ _ _ => "IsLength"
  | Call.IsLowercase _ => "IsLowercase"
  | Call.IsMobilePhone _ _ => "IsMobilePhone"
  | Call.IsMongoId _ => "IsMongoId"
  | Call.IsMultibyte _ => "IsMultibyte"
  | Call.IsSurrogatePair _ => "IsSurrogatePair"
  | Call.IsUrl _ _ => "IsUrl"
  | Call.IsUUID _ _ => "IsUUID"
  | Call.IsUppercase _ => "IsUppercase"
  | Call.IsMinLength _ _ => "IsMinLength"
  | Call.IsMaxLength _ _ => "IsMaxLength"
  | Call.IsContainInArray _ _ => "IsContainInArray"
  | Call.IsNotContainInArray _ _ => "IsNotContainInArray"
  | Call.IsNotEmptyArray _ => "IsNotEmptyArray"
  | Call.IsMinSize _ _ => "IsMinSize"
  | Call.IsMaxSize _ _ => "IsMaxSize"
  | Call.IsAllUnique _ => "IsAllUnique"
  end.

(** The implementation of [IsMatch] cannot see which overload the caller
    wrote; it reads a call as the two-argument overload exactly when the
    second argument is an object and the third is missing or falsy.  A call is
    unambiguous when that reading is the overload the caller wrote: an
    options argument that is absent or an object, a modifiers argument that
    is not an object (or is followed by options).  Every other decorator has
    a single signature. *)
Definition unambiguous (c : Call.t) : bool :=
  match c with
  | Call.IsMatch _ validationOptions =>
      match validationOptions with
      | JsUndefined => true
      | _ => instanceofObject validationOptions
      end
  | Call.IsMatchModifiers _ modifiers validationOptions =>
      negb (instanceofObject modifiers) || truthy validationOptions
  | _ => true
  end.

(** One application of a rule decorator to a property of a class. *)
Record Application := {
  call : Call.t;
  object : Object;
  property : string
}.

Definition apply (a : Application) : Eff unit :=
  decorate (call a) (object a) (property a).

(** Decorators run one after the other, in the order they are applied. *)
Fixpoint applyAll (apps : list Application) : Eff unit :=
  match apps with
  | [] => ret tt
  | a :: rest => (apply a ;;; applyAll rest)%eff
  end.

(** [creates a d]: whatever the storage holds, applying [a] completes and
    its whole effect is to register the descriptor [d]. *)
Definition creates (a : Application) (d : ValidationMetadata) : Prop :=
  ∀ st, apply a st = (Normal tt, register d st).

Definition registerAll (ds : list ValidationMetadata) (st : MetadataStorage) : MetadataStorage :=
  foldl (λ s d, register d s) st ds.

(** A descriptor carries a registered custom-constraint name when one of
    its parameter slots holds a name bound in the catalog. *)
Definition carriesRegisteredName (d : ValidationMetadata) (st : MetadataStorage) : Prop :=
  ∃ n, (arg1 d = JsString n ∨ arg2 d = JsString n) ∧ isBound n st = true.

(** * Properties of the storage *)

Lemma descriptors_register_eq d st :
  descriptors (ownerType d) (register d st) = descriptors (ownerType d) st ++ [d].
Proof. unfold descriptors at 1. simpl. by rewrite lookup_insert_eq. Qed.

Lemma descriptors_register_ne d st owner :
  owner ≠ ownerType d → descriptors owner (register d st) = descriptors owner st.
Proof.
  intros Hne. unfold descriptors at 1. simpl.
  rewrite lookup_insert_ne; [done | congruence].
Qed.

Lemma descriptors_register d st owner :
  descriptors owner (register d st)
  = descriptors owner st ++ filter (λ x, ownerType x = owner) [d].
Proof.
  rewrite filter_cons, filter_nil. case_decide as Hd.
  - subst owner. apply descriptors_register_eq.
  - rewrite app_nil_r. apply descriptors_register_ne. congruence.
Qed.

Lemma constraintMetadatas_register d st :
  constraintMetadatas (register d st) = constraintMetadatas st.
Proof. reflexivity. Qed.

(** The storage remembers which descriptor was registered. *)
Lemma register_inj d d' st : register d st = register d' st → d = d'.
Proof.
  intros Heq.
  assert (Hd : descriptors (ownerType d) (register d' st)
               = descriptors (ownerType d) st ++ [d])
    by (rewrite <- Heq; apply descriptors_register_eq).
  rewrite descriptors_register, filter_cons, filter_nil in Hd.
  case_decide.
  - by apply app_inv_head in Hd; injection Hd.
  - apply (f_equal length) in Hd. rewrite !length_app in Hd. simpl in Hd. lia.
Qed.

Lemma completion_register_inj d d' st :
  (Normal tt, register d st) = (Normal tt, register d' st) → d = d'.
Proof. intros Heq. apply (register_inj _ _ st). exact (f_equal snd Heq). Qed.

Lemma descriptors_registerAll ds st owner :
  descriptors owner (registerAll ds st)
  = descriptors owner st ++ filter (λ d, ownerType d = owner) ds.
Proof.
  revert st. induction ds as [|d ds IH]; intros st; simpl.
  - by rewrite app_nil_r.
  - unfold registerAll in *. simpl. rewrite IH, descriptors_register.
    rewrite <- app_assoc. f_equal.
    rewrite !filter_cons, filter_nil. by case_decide.
Qed.

Lemma constraintMetadatas_registerAll ds st :
  constraintMetadatas (registerAll ds st) = constraintMetadatas st.
Proof.
  revert st. induction ds as [|d ds IH]; intros st; [done|].
  unfold registerAll in *. simpl. by rewrite IH.
Qed.

(** * Properties of the decorators *)

(** What [IsMatch] registers, by the way it reads its arguments. *)
Lemma IsMatch_registers pattern m vo o p st :
  IsMatch pattern m vo o p st
  = (Normal tt,
     register
       (if truthy m && instanceofObject m && negb (truthy vo)
        then {| kind := IS_MATCH; ownerType := constructor o; fieldName := p;
                arg1 := pattern; arg2 := JsUndefined; options := m |}
        else {| kind := IS_MATCH; ownerType := constructor o; fieldName := p;
                arg1 := pattern; arg2 := m; options := vo |})
       st).
Proof.
  unfold IsMatch.
  by destruct (truthy m && instanceofObject m && negb (truthy vo)).
Qed.

(** Every decorator application registers one descriptor, which does not
    depend on the storage; the descriptor names the decorator's constant,
    the class of the decorated object and the decorated property, and holds
    the first rule parameter.  The second parameter and the options are the
    caller's whenever the call is unambiguous. *)
Lemma decorate_registers c o p :
  ∃ d, (∀ st, decorate c o p st = (Normal tt, register d st))
     ∧ kind d = kind_of c
     ∧ ownerType d = constructor o
     ∧ fieldName d = p
     ∧ arg1 d = value1_arg c
     ∧ (unambiguous c = true → arg2 d = value2_arg c ∧ options d = options_arg c).
Proof.
  destruct c;
    try (eexists; split; [intros st; reflexivity | by repeat split]);
    (eexists; split; [intros st; apply IsMatch_registers|]);
    match goal with
    | |- context [if ?read then _ else _] => destruct read eqn:Hread
    end; simpl; repeat (split; [done|]); try done; intros Hu.
  - (* an options argument that is a primitive would be read as modifiers *)
    match goal with v : JsValue |- _ => by destruct v end.
  - (* an object in the modifiers position with no options after it *)
    apply andb_true_iff in Hread as [[_ Hobj]%andb_true_iff Hno].
    rewrite Hobj in Hu. simpl in Hu. rewrite Hu in Hno. discriminate.
Qed.

Lemma unambiguous_single_signature c : kind_of c ≠ IS_MATCH → unambiguous c = true.
Proof. by destruct c. Qed.

Lemma apply_creates a : ∃ d, creates a d ∧ kind d = kind_of (call a)
  ∧ ownerType d = constructor (object a) ∧ fieldName d = property a.
Proof.
  destruct (decorate_registers (call a) (object a) (property a))
    as (d & Hrun & Hk & Ho & Hf & _).
  exists d. by repeat split.
Qed.

(** A sequence of applications registers its descriptors one by one. *)
Lemma applyAll_registerAll apps :
  ∃ ds, Forall2 creates apps ds
      ∧ ∀ st, applyAll apps st = (Normal tt, registerAll ds st).
Proof.
  induction apps as [|a apps (ds & Hds & Hrun)].
  - exists []. split; [constructor | done].
  - destruct (apply_creates a) as (d & Hd & _).
    exists (d :: ds). split; [by constructor|].
    intros st. simpl. unfold bind. rewrite (Hd st). apply Hrun.
Qed.

(** * Properties of the constraint catalog *)

Lemma isBound_resolve n st : isBound n st = true ↔ is_Some (resolve n st).
Proof.
  unfold isBound, resolve. rewrite bool_decide_eq_true, Exists_exists.
  rewrite fmap_is_Some. split.
  - intros (m & Hin & Hm).
    assert (Hf : m ∈ filter (λ m, name m = Some n) (constraintMetadatas st))
      by (by apply list_elem_of_filter).
    destruct (filter _ _); [by apply elem_of_nil in Hf | by eexists].
  - intros [m Hm].
    assert (Hf : m ∈ filter (λ m, name m = Some n) (constraintMetadatas st)).
    { destruct (filter _ _); [done|]. injection Hm as ->.
      apply elem_of_cons. by left. }
    apply list_elem_of_filter in Hf as [? ?]. eauto.
Qed.

Lemma resolve_unbindConstraint n st : resolve n (unbindConstraint n st) = None.
Proof.
  unfold resolve, unbindConstraint. simpl.
  induction (constraintMetadatas st) as [|m l IH]; [done|].
  rewrite filter_cons. case_decide; [|done].
  rewrite filter_cons. by case_decide.
Qed.

Lemma resolve_bindConstraint_fresh n target st :
  resolve n st = None →
  resolve n (bindConstraint (new_ConstraintMetadata target (Some n)) st) = Some target.
Proof.
  unfold resolve, bindConstraint. simpl. intros Hfresh.
  rewrite filter_app.
  destruct (filter _ (constraintMetadatas st)); [|done].
  simpl. rewrite filter_cons. by case_decide.
Qed.

Lemma resolve_bindConstraint_unnamed n target st :
  resolve n (bindConstraint (new_ConstraintMetadata target None) st) = resolve n st.
Proof.
  unfold resolve, bindConstraint. simpl.
  rewrite filter_app, filter_cons, filter_nil.
  case_decide; [done|]. by rewrite app_nil_r.
Qed.

(** * The registry *)

(** C1: every rule decorator ([IsEqual], [IsLength], [NestedValidation],
    [Validate], ...), applied to an object and a property name, creates one
    descriptor and appends it to the registry; the descriptor's ownerType is
    the object's constructor, its fieldName is the property name and its
    kind is the [ValidationTypes] constant of that decorator. *)
Theorem decorate_owner_field_kind
    (c : Call.t) (o : Object) (p : string) (st : MetadataStorage) :
  ∃ d, decorate c o p st = (Normal tt, register d st)
     ∧ descriptors (constructor o) (register d st)
       = descriptors (constructor o) st ++ [d]
     ∧ ownerType d = constructor o
     ∧ fieldName d = p
     ∧ kind d = kind_of c.
Proof.
  destruct (decorate_registers c o p) as (d & Hrun & Hk & Ho & Hf & _).
  exists d. repeat split; try done.
  rewrite <- Ho. apply descriptors_register_eq.
Qed.

(** C2: a sequence of decorator applications appends its descriptors in the
    order of the applications, one descriptor per application: the sequence
    of every owner type grows at its end by the descriptors created for that
    owner, in application order, and every descriptor registered before
    stays at its place, unchanged. *)
Theorem applyAll_appends_in_order (apps : list Application) (st : MetadataStorage) :
  ∃ ds st',
    applyAll apps st = (Normal tt, st')
    ∧ Forall2 (λ a d, creates a d
                      ∧ ownerType d = constructor (object a)
                      ∧ fieldName d = property a
                      ∧ kind d = kind_of (call a)) apps ds
    ∧ (∀ owner, descriptors owner st'
                = descriptors owner st ++ filter (λ d, ownerType d = owner) ds)
    ∧ (∀ owner i d, descriptors owner st !! i = Some d →
                    descriptors owner st' !! i = Some d)
    ∧ constraintMetadatas st' = constraintMetadatas st.
Proof.
  destruct (applyAll_registerAll apps) as (ds & Hds & Hrun).
  exists ds, (registerAll ds st). split; [apply Hrun|]. split.
  - clear Hrun. induction Hds as [|a d apps ds Hd _ IH]; constructor; [|done].
    destruct (apply_creates a) as (d' & Hd' & Ho & Hf & Hk).
    assert (d = d') as ->; [|done].
    apply (register_inj _ _ emptyStorage).
    specialize (Hd emptyStorage). specialize (Hd' emptyStorage). congruence.
  - split; [apply descriptors_registerAll|]. split.
    + intros owner i d Hi. rewrite descriptors_registerAll.
      by apply lookup_app_l_Some.
    + apply constraintMetadatas_registerAll.
Qed.

(** C3: registration never rejects and never deduplicates: two decorators
    applied to the same property of the same class, whether they are the
    same decorator or not and whatever their parameters, leave two
    descriptors at the end of the owner's sequence, in application order;
    applying the very same call twice leaves its descriptor twice. *)
Theorem register_never_deduplicates
    (c1 c2 : Call.t) (o : Object) (p : string) (st : MetadataStorage) :
  (∃ d1 d2 st',
      (decorate c1 o p ;;; decorate c2 o p)%eff st = (Normal tt, st')
      ∧ creates {| call := c1; object := o; property := p |} d1
      ∧ creates {| call := c2; object := o; property := p |} d2
      ∧ kind d1 = kind_of c1 ∧ kind d2 = kind_of c2
      ∧ fieldName d1 = p ∧ fieldName d2 = p
      ∧ descriptors (constructor o) st'
        = descriptors (constructor o) st ++ [d1; d2])
  ∧ (∃ d st',
      (decorate c1 o p ;;; decorate c1 o p)%eff st = (Normal tt, st')
      ∧ descriptors (constructor o) st'
        = descriptors (constructor o) st ++ [d; d]).
Proof.
  destruct (decorate_registers c1 o p) as (d1 & Hrun1 & Hk1 & Ho1 & Hf1 & _).
  destruct (decorate_registers c2 o p) as (d2 & Hrun2 & Hk2 & Ho2 & Hf2 & _).
  assert (Htwice : ∀ d d', ownerType d = constructor o → ownerType d' = constructor o →
            descriptors (constructor o) (register d' (register d st))
            = descriptors (constructor o) st ++ [d; d']).
  { intros d d' Hd Hd'. rewrite <- Hd' at 1. rewrite descriptors_register_eq.
    rewrite Hd', <- Hd at 1. rewrite descriptors_register_eq, Hd.
    by rewrite <- app_assoc. }
  split.
  - exists d1, d2, (register d2 (register d1 st)).
    split; [unfold bind; by rewrite Hrun1, Hrun2|].
    repeat split; try done. by apply Htwice.
  - exists d1, (register d1 (register d1 st)).
    split; [unfold bind; by rewrite !Hrun1|]. by apply Htwice.
Qed.

(** C6: [NestedValidation], applied to a property with its options, creates
    a descriptor of the NESTED kind for the class and the property; the
    descriptor carries the options and no rule parameter. *)
Theorem NestedValidation_registers_nested
    (validationOptions : JsValue) (o : Object) (p : string) (st : MetadataStorage) :
  let d := {| kind := NESTED_VALIDATION;
              ownerType := constructor o;
              fieldName := p;
              arg1 := JsUndefined;
              arg2 := JsUndefined;
              options := validationOptions |} in
  NestedValidation validationOptions o p st = (Normal tt, register d st)
  ∧ descriptors (constructor o) (register d st)
    = descriptors (constructor o) st ++ [d].
Proof.
  intros d. split; [reflexivity|]. apply (descriptors_register_eq d).
Qed.

(** * Rule parameters and options *)

(** C5, as the code has it: a descriptor of kind CUSTOM created by
    [Validate] carries in its first slot the constraint class the caller
    passed (the evaluator's constructor itself, not the name it was
    registered under); [Validate] takes no further rule argument, so the
    second slot is absent; the caller's options are stored with it. *)
Theorem Validate_carries_constraint_class
    (constraintClass validationOptions : JsValue)
    (o : Object) (p : string) (st : MetadataStorage) :
  let d := {| kind := CUSTOM_VALIDATION;
              ownerType := constructor o;
              fieldName := p;
              arg1 := constraintClass;
              arg2 := JsUndefined;
              options := validationOptions |} in
  Validate constraintClass validationOptions o p st = (Normal tt, register d st)
  ∧ descriptors (constructor o) (register d st)
    = descriptors (constructor o) st ++ [d].
Proof.
  intros d. split; [reflexivity|]. apply (descriptors_register_eq d).
Qed.

(** C5, as stated, fails: with the class 7 registered as custom constraint
    under the name isEven, [Validate] on that class creates a descriptor
    that holds the class and no registered name. *)
Lemma Validate_carries_no_name :
  ¬ ∃ d,
      Validate (JsFunction 7) JsUndefined {| constructor := 1 |} "age"
        (ValidatorConstraint (Some "isEven") 7 emptyStorage).2
      = (Normal tt,
         register d (ValidatorConstraint (Some "isEven") 7 emptyStorage).2)
      ∧ kind d = CUSTOM_VALIDATION
      ∧ carriesRegisteredName d
          (ValidatorConstraint (Some "isEven") 7 emptyStorage).2.
Proof.
  intros (d & Hrun & _ & n & Hslot & _).
  apply completion_register_inj in Hrun. subst d.
  simpl in Hslot. by destruct Hslot.
Qed.



(** C8, as the code has it: no decorator validates its rule parameters.
    Whatever their values, present or not, the registration completes and
    the first parameter is stored as it is in the first slot; the second
    parameter is stored as it is in the second slot, except that [IsMatch]
    reads an object in second position with nothing (or a falsy value)
    after it as the validation options and leaves the second slot
    undefined. *)
Theorem decorate_stores_parameters
    (c : Call.t) (o : Object) (p : string) (st : MetadataStorage) :
  ∃ d, decorate c o p st = (Normal tt, register d st)
     ∧ arg1 d = value1_arg c
     ∧ (unambiguous c = true → arg2 d = value2_arg c)
     ∧ (kind_of c ≠ IS_MATCH → arg2 d = value2_arg c)
     ∧ ∀ pattern modifiers third,
         c = Call.IsMatchModifiers pattern modifiers third →
         instanceofObject modifiers = true →
         truthy third = false →
         arg2 d = JsUndefined ∧ options d = modifiers.
Proof.
  destruct (decorate_registers c o p) as (d & Hrun & _ & _ & _ & H1 & Hslots).
  exists d. split; [apply Hrun|]. split; [done|]. split; [|split].
  - intros Hu. by apply Hslots.
  - intros Hk. by apply Hslots, unambiguous_single_signature.
  - intros pattern modifiers third -> Hobj Hno.
    specialize (Hrun st). simpl in Hrun. rewrite IsMatch_registers in Hrun.
    apply completion_register_inj in Hrun. subst d.
    rewrite Hobj, Hno. by destruct modifiers.
Qed.

(** C8, as stated, fails: an array handed to [IsMatch] as modifiers, with no
    options after it, is not stored in the second slot. *)
Lemma IsMatch_drops_object_modifiers :
  ¬ ∃ d,
      decorate
        (Call.IsMatchModifiers (JsRegExp "^a") (JsArray [JsString "i"]) JsUndefined)
        {| constructor := 1 |} "name" emptyStorage
      = (Normal tt, register d emptyStorage)
      ∧ arg1 d = JsRegExp "^a"
      ∧ arg2 d = JsArray [JsString "i"].
Proof.
  intros (d & Hrun & _ & Hslot).
  simpl in Hrun. rewrite IsMatch_registers in Hrun.
  apply completion_register_inj in Hrun. subst d.
  discriminate Hslot.
Qed.

(** C9: [IsMatch] tells its overloads apart by its second argument.  An
    object in second position with no third argument is the validation
    options, and the modifiers slot stays undefined; a string in second
    position is the modifiers, and the third argument, given or not, is the
    validation options.  The first slot is the pattern in both cases. *)
Theorem IsMatch_disambiguates
    (pattern second third : JsValue) (modifiers : string)
    (o : Object) (p : string) (st : MetadataStorage) :
  instanceofObject second = true →
  IsMatch pattern second JsUndefined o p st
  = (Normal tt,
     register {| kind := IS_MATCH; ownerType := constructor o; fieldName := p;
                 arg1 := pattern; arg2 := JsUndefined; options := second |} st)
  ∧ IsMatch pattern (JsString modifiers) third o p st
    = (Normal tt,
       register {| kind := IS_MATCH; ownerType := constructor o; fieldName := p;
                   arg1 := pattern; arg2 := JsString modifiers;
                   options := third |} st).
Proof.
  intros Hobj. rewrite !IsMatch_registers. split.
  - by destruct second.
  - simpl. by rewrite andb_false_r.
Qed.

(** * Custom constraints *)

(** A first registration under a free name succeeds and binds the name. *)
Lemma ValidatorConstraint_fresh n target st :
  resolve n st = None →
  ValidatorConstraint (Some n) target st
  = (Normal tt, bindConstraint (new_ConstraintMetadata target (Some n)) st)
  ∧ resolve n (bindConstraint (new_ConstraintMetadata target (Some n)) st)
    = Some target.
Proof.
  intros Hfree. split; [|by apply resolve_bindConstraint_fresh].
  unfold ValidatorConstraint, addConstraintMetadata. simpl.
  destruct (isBound n st) eqn:Hb; [|done].
  apply isBound_resolve in Hb as [f Hf]. congruence.
Qed.

(** C4: registering a custom constraint under a name that is already bound
    fails with [DuplicateConstraintName] and leaves the storage as it was,
    so the name still resolves to the first registration; this is what
    [ValidatorConstraint] does, since it never asks for override.  A
    registration that explicitly asks for override succeeds and rebinds the
    name. *)
Theorem duplicate_constraint_name
    (n : string) (first second : Function) (st : MetadataStorage) :
  resolve n st = Some first →
  addConstraintMetadata (new_ConstraintMetadata second (Some n)) false st
  = (Throw (DuplicateConstraintName n), st)
  ∧ ValidatorConstraint (Some n) second st
    = (Throw (DuplicateConstraintName n), st)
  ∧ resolve n (ValidatorConstraint (Some n) second st).2 = Some first
  ∧ ∃ st',
      addConstraintMetadata (new_ConstraintMetadata second (Some n)) true st
      = (Normal tt, st')
      ∧ resolve n st' = Some second.
Proof.
  intros Hfirst.
  assert (Hb : isBound n st = true) by (apply isBound_resolve; by eexists).
  assert (Hthrow : addConstraintMetadata (new_ConstraintMetadata second (Some n)) false st
                   = (Throw (DuplicateConstraintName n), st))
    by (unfold addConstraintMetadata; simpl; by rewrite Hb).
  split; [done|]. split; [done|]. split.
  - unfold ValidatorConstraint. by rewrite Hthrow.
  - eexists. split.
    + unfold addConstraintMetadata. simpl. by rewrite Hb.
    + apply resolve_bindConstraint_fresh, resolve_unbindConstraint.
Qed.

(** C10: the name of [ValidatorConstraint] is optional.  Registering an
    evaluator class without a name succeeds in every storage and adds a
    catalog entry for the class whose name is absent; the entry binds no
    name. *)
Theorem ValidatorConstraint_without_name (target : Function) (st : MetadataStorage) :
  let entry := {| evaluator := target; name := None |} in
  ValidatorConstraint None target st = (Normal tt, bindConstraint entry st)
  ∧ constraintMetadatas (bindConstraint entry st)
    = constraintMetadatas st ++ [entry]
  ∧ validationMetadatas (bindConstraint entry st) = validationMetadatas st
  ∧ ∀ n, resolve n (bindConstraint entry st) = resolve n st.
Proof.
  intros entry. repeat split.
  intros n. apply resolve_bindConstraint_unnamed.
Qed.

(** * The theorems at concrete applications *)

(** The name isEven, once bound to class 7, cannot be taken by class 8
    unless override is asked for. *)
Lemma duplicate_constraint_name_isEven :
  resolve "isEven" (ValidatorConstraint (Some "isEven") 7 emptyStorage).2 = Some 7%positive
  ∧ ValidatorConstraint (Some "isEven") 8
      (ValidatorConstraint (Some "isEven") 7 emptyStorage).2
    = (Throw (DuplicateConstraintName "isEven"),
       (ValidatorConstraint (Some "isEven") 7 emptyStorage).2)
  ∧ ∃ st',
      addConstraintMetadata (new_ConstraintMetadata 8 (Some "isEven")) true
        (ValidatorConstraint (Some "isEven") 7 emptyStorage).2
      = (Normal tt, st')
      ∧ resolve "isEven" st' = Some 8%positive.
Proof.
  split; [reflexivity|].
  pose proof (duplicate_constraint_name "isEven" 7 8
                (ValidatorConstraint (Some "isEven") 7 emptyStorage).2
                eq_refl) as (_ & Hthrow & _ & Hover).
  split; [exact Hthrow | exact Hover].
Defined.


(** [IsMatch(/^a/, "i")] keeps its modifiers. *)
Lemma decorate_stores_parameters_IsMatch :
  ∃ d,
    decorate (Call.IsMatchModifiers (JsRegExp "^a") (JsString "i") JsUndefined)
      {| constructor := 1 |} "name" emptyStorage
    = (Normal tt, register d emptyStorage)
    ∧ arg1 d = JsRegExp "^a"
    ∧ arg2 d = JsString "i".
Proof.
  destruct (decorate_stores_parameters
              (Call.IsMatchModifiers (JsRegExp "^a") (JsString "i") JsUndefined)
              {| constructor := 1 |} "name" emptyStorage)
    as (d & Hrun & H1 & H2 & _).
  exists d. split; [exact Hrun|]. split; [exact H1 | exact (H2 eq_refl)].
Defined.

(** [IsMatch(/^a/, {message: "no"})] and [IsMatch(/^a/, "i", {message: "no"})]. *)
Lemma IsMatch_disambiguates_message :
  instanceofObject (JsObject [("message", JsString "no")]) = true
  ∧ IsMatch (JsRegExp "^a") (JsObject [("message", JsString "no")]) JsUndefined
      {| constructor := 1 |} "name" emptyStorage
    = (Normal tt,
       register {| kind := IS_MATCH; ownerType := 1; fieldName := "name";
                   arg1 := JsRegExp "^a"; arg2 := JsUndefined;
                   options := JsObject [("message", JsString "no")] |}
         emptyStorage)
  ∧ IsMatch (JsRegExp "^a") (JsString "i") (JsObject [("message", JsString "no")])
      {| constructor := 1 |} "name" emptyStorage
    = (Normal tt,
       register {| kind := IS_MATCH; ownerType := 1; fieldName := "name";
                   arg1 := JsRegExp "^a"; arg2 := JsString "i";
                   options := JsObject [("message", JsString "no")] |}
         emptyStorage).
Proof.
  split; [reflexivity|].
  apply (IsMatch_disambiguates (JsRegExp "^a")
           (JsObject [("message", JsString "no")])
           (JsObject [("message", JsString "no")]) "i"
           {| constructor := 1 |} "name" emptyStorage).
  reflexivity.
Defined.

(** Two differently configured length checks on one property are both kept,
    in the order they were applied. *)
Example IsLength_twice :
  descriptors 1
    ((decorate (Call.IsLength (JsNumber 2) (JsNumber 10) JsUndefined)
        {| constructor := 1 |} "title" ;;;
      decorate (Call.IsLength (JsNumber 5) JsUndefined JsUndefined)
        {| constructor := 1 |} "title")%eff emptyStorage).2
  = [ {| kind := IS_LENGTH; ownerType := 1; fieldName := "title";
         arg1 := JsNumber 2; arg2 := JsNumber 10; options := JsUndefined |};
      {| kind := IS_LENGTH; ownerType := 1; fieldName := "title";
         arg1 := JsNumber 5; arg2 := JsUndefined; options := JsUndefined |} ].
Proof. reflexivity. Qed.

(** Decorators applied to two classes in turn: each class keeps its own
    descriptors in application order. *)
Example applyAll_two_classes :
  let apps :=
    [ {| call := Call.IsNotEmpty JsUndefined;
         object := {| constructor := 1 |}; property := "title" |};
      {| call := Call.IsEmail JsUndefined JsUndefined;
         object := {| constructor := 2 |}; property := "email" |};
      {| call := Call.IsMaxLength (JsNumber 20) JsUndefined;
         object := {| constructor := 1 |}; property := "title" |} ] in
  (applyAll apps emptyStorage).1 = Normal tt
  ∧ kind <$> descriptors 1 (applyAll apps emptyStorage).2 = [IS_NOT_EMPTY; MAX_LENGTH]
  ∧ kind <$> descriptors 2 (applyAll apps emptyStorage).2 = [IS_EMAIL].
Proof. repeat split. Qed.

(** Two evaluator classes registered without a name do not collide. *)
Example ValidatorConstraint_unnamed_twice :
  ((ValidatorConstraint None 7 ;;; ValidatorConstraint None 8)%eff emptyStorage)
  = (Normal tt,
     {| validationMetadatas := ∅;
        constraintMetadatas := [ {| evaluator := 7; name := None |};
                                 {| evaluator := 8; name := None |} ] |}).
Proof. reflexivity. Qed.

(** * Further properties of the decorators *)

(** What a completed application registered is what [decorate_registers]
    describes. *)
Lemma decorate_inv c o p st d :
  decorate c o p st = (Normal tt, register d st) →
  kind d = kind_of c ∧ ownerType d = constructor o ∧ fieldName d = p
  ∧ arg1 d = value1_arg c
  ∧ (unambiguous c = true → arg2 d = value2_arg c ∧ options d = options_arg c).
Proof.
  intros Hrun.
  destruct (decorate_registers c o p) as (d' & Hrun' & Hfacts).
  rewrite Hrun' in Hrun. apply completion_register_inj in Hrun. by subst d'.
Qed.

Lemma instanceofObject_truthy v : instanceofObject v = true → truthy v = true.
Proof. by destruct v. Qed.

(** No two decorator functions name the same constant. *)
Lemma kind_of_functionName c1 c2 :
  kind_of c1 = kind_of c2 ↔ functionName c1 = functionName c2.
Proof.
  split; intros Heq; destruct c1; destruct c2; simpl in *;
    first [reflexivity | discriminate Heq].
Qed.

(** X1: the kind of a descriptor tells which decorator registered it, and
    nothing else: two applications register descriptors of the same kind
    exactly when they apply the same decorator function, whatever the
    parameters, the class and the property. *)
Theorem kind_identifies_decorator
    (c1 c2 : Call.t) (o1 o2 : Object) (p1 p2 : string)
    (st1 st2 : MetadataStorage) (d1 d2 : ValidationMetadata) :
  decorate c1 o1 p1 st1 = (Normal tt, register d1 st1) →
  decorate c2 o2 p2 st2 = (Normal tt, register d2 st2) →
  kind d1 = kind d2 ↔ functionName c1 = functionName c2.
Proof.
  intros (Hk1 & _)%decorate_inv (Hk2 & _)%decorate_inv.
  rewrite Hk1, Hk2. apply kind_of_functionName.
Qed.

(** X2: only [IsByteLength], [IsLength] and [IsMatch] ever fill the second
    parameter slot; a descriptor of any other kind has it undefined. *)
Theorem only_ranges_and_match_fill_arg2
    (c : Call.t) (o : Object) (p : string)
    (st : MetadataStorage) (d : ValidationMetadata) :
  decorate c o p st = (Normal tt, register d st) →
  arg2 d ≠ JsUndefined →
  kind d = IS_BYTE_LENGTH ∨ kind d = IS_LENGTH ∨ kind d = IS_MATCH.
Proof.
  intros (Hk & _ & _ & _ & Hslots)%decorate_inv Hfilled. rewrite Hk.
  destruct c; simpl in *; auto;
    destruct (Hslots eq_refl) as [Hempty _]; congruence.
Qed.

(** X3: a decorator can be reused.  Applied to another property of another
    class, the same call registers the same descriptor but for its owner
    and field: [IsMatch] decides how to read its arguments before it sees
    the decorated object. *)
Theorem decorator_reusable (c : Call.t) (o1 o2 : Object) (p1 p2 : string) :
  ∃ d1 d2,
    creates {| call := c; object := o1; property := p1 |} d1
    ∧ creates {| call := c; object := o2; property := p2 |} d2
    ∧ ownerType d1 = constructor o1 ∧ fieldName d1 = p1
    ∧ d2 = {| kind := kind d1;
              ownerType := constructor o2;
              fieldName := p2;
              arg1 := arg1 d1;
              arg2 := arg2 d1;
              options := options d1 |}.
Proof.
  destruct c;
    try (do 2 eexists; split; [intros st; reflexivity|];
         split; [intros st; reflexivity | by repeat split]);
    (do 2 eexists; split; [intros st; apply IsMatch_registers|];
     split; [intros st; apply IsMatch_registers|]);
    match goal with
    | |- context [if ?read then _ else _] => by destruct read
    end.
Qed.

(** X4: the slots [IsMatch] stores are in canonical form: called again on
    the pattern, the stored modifiers and the stored options, it registers
    the very same descriptor. *)
Theorem IsMatch_stored_slots_canonical
    (pattern second third : JsValue) (o : Object) (p : string) (st : MetadataStorage) :
  ∃ d, IsMatch pattern second third o p st = (Normal tt, register d st)
     ∧ IsMatch pattern (arg2 d) (options d) o p st = (Normal tt, register d st).
Proof.
  eexists. split; [apply IsMatch_registers|].
  rewrite IsMatch_registers.
  destruct (truthy second && instanceofObject second && negb (truthy third))
    eqn:Hread; simpl; [done | by rewrite Hread].
Qed.

(** X5: options that are an object may be handed to [IsMatch] in second or
    in third position; with no modifiers the two calls are the same
    decorator. *)
Theorem IsMatch_options_second_or_third (pattern validationOptions : JsValue) :
  instanceofObject validationOptions = true →
  IsMatch pattern validationOptions JsUndefined
  = IsMatch pattern JsUndefined validationOptions.
Proof. by destruct validationOptions. Qed.

(** X6: a descriptor of kind IS_MATCH holds an object in its modifiers slot
    only together with truthy options: without options after it, an object
    in second position is never stored as modifiers. *)
Theorem IsMatch_object_modifiers_need_options
    (c : Call.t) (o : Object) (p : string)
    (st : MetadataStorage) (d : ValidationMetadata) :
  decorate c o p st = (Normal tt, register d st) →
  kind d = IS_MATCH →
  instanceofObject (arg2 d) = true →
  truthy (options d) = true.
Proof.
  intros Hrun Hk Hobj.
  pose proof (decorate_inv _ _ _ _ _ Hrun) as (Hk' & _).
  rewrite Hk in Hk'.
  destruct c; try discriminate Hk'; simpl in Hrun;
    rewrite IsMatch_registers in Hrun;
    apply completion_register_inj in Hrun; subst d;
    match type of Hobj with
    | context [if ?read then _ else _] => destruct read eqn:Hread
    end; simpl in *; try discriminate Hobj;
    rewrite Hobj, (instanceofObject_truthy _ Hobj) in Hread; simpl in Hread.
  - discriminate Hread.
  - by apply negb_false_iff in Hread.
Qed.

(** X1 at [IsLength(2, 10)] on a title and [IsLength(5)] on a name. *)
Lemma kind_identifies_decorator_IsLength :
  ∃ d1 d2,
    decorate (Call.IsLength (JsNumber 2) (JsNumber 10) JsUndefined)
      {| constructor := 1 |} "title" emptyStorage
    = (Normal tt, register d1 emptyStorage)
    ∧ decorate (Call.IsLength (JsNumber 5) JsUndefined JsUndefined)
        {| constructor := 2 |} "name" emptyStorage
      = (Normal tt, register d2 emptyStorage)
    ∧ (kind d1 = kind d2
       ↔ functionName (Call.IsLength (JsNumber 2) (JsNumber 10) JsUndefined)
         = functionName (Call.IsLength (JsNumber 5) JsUndefined JsUndefined)).
Proof.
  do 2 eexists. split; [reflexivity|]. split; [reflexivity|].
  exact (kind_identifies_decorator
           (Call.IsLength (JsNumber 2) (JsNumber 10) JsUndefined)
           (Call.IsLength (JsNumber 5) JsUndefined JsUndefined)
           {| constructor := 1 |} {| constructor := 2 |} "title" "name"
           emptyStorage emptyStorage _ _ eq_refl eq_refl).
Defined.

(** X2 at [IsByteLength(0, 16)]. *)
Lemma only_ranges_and_match_fill_arg2_IsByteLength :
  ∃ d,
    decorate (Call.IsByteLength (JsNumber 0) (JsNumber 16) JsUndefined)
      {| constructor := 1 |} "token" emptyStorage
    = (Normal tt, register d emptyStorage)
    ∧ arg2 d ≠ JsUndefined
    ∧ (kind d = IS_BYTE_LENGTH ∨ kind d = IS_LENGTH ∨ kind d = IS_MATCH).
Proof.
  eexists. split; [reflexivity|]. split; [discriminate|].
  apply (only_ranges_and_match_fill_arg2
           (Call.IsByteLength (JsNumber 0) (JsNumber 16) JsUndefined)
           {| constructor := 1 |} "token" emptyStorage _ eq_refl).
  discriminate.
Defined.

(** X5 at [IsMatch(/^a/, {message: "no"})]. *)
Lemma IsMatch_options_second_or_third_message :
  instanceofObject (JsObject [("message", JsString "no")]) = true
  ∧ IsMatch (JsRegExp "^a") (JsObject [("message", JsString "no")]) JsUndefined
    = IsMatch (JsRegExp "^a") JsUndefined (JsObject [("message", JsString "no")]).
Proof.
  split; [reflexivity|].
  apply (IsMatch_options_second_or_third (JsRegExp "^a")
           (JsObject [("message", JsString "no")])).
  reflexivity.
Defined.

(** X6 at [IsMatch(/^a/, ["i"], {message: "no"})]. *)
Lemma IsMatch_object_modifiers_need_options_array :
  ∃ d,
    decorate
      (Call.IsMatchModifiers (JsRegExp "^a") (JsArray [JsString "i"])
         (JsObject [("message", JsString "no")]))
      {| constructor := 1 |} "name" emptyStorage
    = (Normal tt, register d emptyStorage)
    ∧ kind d = IS_MATCH
    ∧ instanceofObject (arg2 d) = true
    ∧ truthy (options d) = true.
Proof.
  exists {| kind := IS_MATCH; ownerType := 1; fieldName := "name";
            arg1 := JsRegExp "^a"; arg2 := JsArray [JsString "i"];
            options := JsObject [("message", JsString "no")] |}.
  split; [reflexivity|]. split; [reflexivity|]. split; [reflexivity|].
  apply (IsMatch_object_modifiers_need_options
           (Call.IsMatchModifiers (JsRegExp "^a") (JsArray [JsString "i"])
              (JsObject [("message", JsString "no")]))
           {| constructor := 1 |} "name" emptyStorage _ eq_refl);
    reflexivity.
Defined.
